(** * LifeHub e-ink client: the poll loop of [eink_client/main.py]

    A shallow embedding of [connect_wifi], [fetch_data], [display_data],
    [get_battery] and [main] with its [while True] loop, over the values a
    JSON body can parse to, together with the properties of the fetch
    boundary, the renderer, the sleep-duration lookup and the loop. *)

From Stdlib Require Import String Ascii List ZArith Bool Lia.
From Stdlib Require Import DecimalString DecimalPos DecimalZ.
Import ListNotations.

Local Open Scope string_scope.
Local Open Scope Z_scope.

(** ** Values *)

(** A float is carried by the two observations this program can make of it:
    its truth value ([not data]) and its text ([str], f-string). *)
Record pyfloat := { float_nonzero : bool; float_text : string }.

(** What [response.json()] can hand back, plus the [None] of a failed fetch.
    A dict is the list of its items in insertion order; its keys are taken
    to be distinct, and a lookup reads the first binding of a key. *)
#[warnings="-register-all"]
Inductive value :=
| VNone
| VBool (b : bool)
| VInt (n : Z)
| VFloat (f : pyfloat)
| VStr (s : string)
| VList (xs : list value)
| VDict (items : list (string * value)).

Fixpoint dict_lookup (k : string) (items : list (string * value)) : option value :=
  match items with
  | [] => None
  | (k', v) :: rest => if String.eqb k' k then Some v else dict_lookup k rest
  end.

(** [str(n)] of an int. *)
Definition str_int (n : Z) : string := NilZero.string_of_int (Z.to_int n).

(** ** Exceptions, events and the effect monad *)

(** An exception coming out of the HTTP library ([urequests.get], or
    [response.json()]): whether it is an instance of [Exception] (transport
    and parsing errors are; [KeyboardInterrupt] and [SystemExit] are not),
    and its [str]. *)
Record lib_exc := { is_Exception : bool; description : string }.

Inductive pyexc :=
| KeyError (key : string)         (* d[key], key not in d *)
| TypeError                       (* subscript, membership or iteration on a type without it *)
| AttributeError (attr : string)  (* v.attr on a value without that attribute *)
| SleepError                      (* time.sleep refused its argument *)
| Propagated (e : lib_exc).       (* a library exception no handler caught *)

Inductive event :=
| Printed (text : string)     (* one call of print *)
| Requested (url : string)    (* one call of urequests.get *)
| Slept (seconds : value).    (* one call of time.sleep that returned *)

Inductive outcome (A : Type) :=
| Returned (a : A)
| Raised (e : pyexc).
Arguments Returned {A} a.
Arguments Raised {A} e.

(** A computation: the events it performed, then how it ended. *)
Definition io (A : Type) : Type := list event * outcome A.

Definition ret {A} (a : A) : io A := ([], Returned a).

Definition bind {A B} (m : io A) (k : A -> io B) : io B :=
  match m with
  | (evs, Returned a) => let (evs', r) := k a in ((evs ++ evs')%list, r)
  | (evs, Raised e) => (evs, Raised e)
  end.

Definition emit (ev : event) : io unit := ([ev], Returned tt).
Definition print (text : string) : io unit := emit (Printed text).
Definition raise {A} (e : pyexc) : io A := ([], Raised e).

Notation "x <- m ;; k" := (bind m (fun x => k))
  (at level 61, m at next level, right associativity).
Notation "m ;; k" := (bind m (fun _ => k))
  (at level 61, right associativity).

Fixpoint for_each {A} (xs : list A) (body : A -> io unit) : io unit :=
  match xs with
  | [] => ret tt
  | x :: rest => body x ;; for_each rest body
  end.

Definition faults {A} (m : io A) : Prop := exists e, snd m = Raised e.

Definition is_fault {A} (m : io A) : bool :=
  match snd m with Raised _ => true | Returned _ => false end.

(** ** The platform *)

(** What the MicroPython runtime decides and the source does not: the [str]
    of a list or dict, and which argument [time.sleep] refuses. *)
Class Platform := {
  container_repr : value -> string;
  sleep_refuses : value -> bool
}.

(** ** Python operations the source uses *)

(** Truth value, as tested by [not data]. *)
Definition truthy (v : value) : bool :=
  match v with
  | VNone => false
  | VBool b => b
  | VInt n => negb (n =? 0)
  | VFloat f => float_nonzero f
  | VStr s => negb (String.eqb s "")
  | VList xs => match xs with [] => false | _ => true end
  | VDict items => match items with [] => false | _ => true end
  end.

Definition is_substring (needle hay : string) : bool :=
  match String.index 0 needle hay with Some _ => true | None => false end.

Definition is_str (k : string) (v : value) : bool :=
  match v with VStr s => String.eqb s k | _ => false end.

(** [k in v] for a str [k]: a key of a dict, an element of a list, a
    substring of a str; any other right operand is a TypeError. *)
Definition py_in (k : string) (v : value) : io bool :=
  match v with
  | VDict items => ret (match dict_lookup k items with Some _ => true | None => false end)
  | VList xs => ret (existsb (is_str k) xs)
  | VStr s => ret (is_substring k s)
  | _ => raise TypeError
  end.

(** [v[k]] for a str [k]. *)
Definition subscript (v : value) (k : string) : io value :=
  match v with
  | VDict items =>
      match dict_lookup k items with
      | Some x => ret x
      | None => raise (KeyError k)
      end
  | _ => raise TypeError
  end.

(** [v.get(k, default)]: only a dict has the method. *)
Definition method_get (v : value) (k : string) (default : value) : io value :=
  match v with
  | VDict items =>
      match dict_lookup k items with
      | Some x => ret x
      | None => ret default
      end
  | _ => raise (AttributeError "get")
  end.

Definition chars_of (s : string) : list value :=
  map (fun c => VStr (String c "")) (list_ascii_of_string s).

(** The elements a [for] loop walks: a list's elements, a dict's keys, a
    str's characters. *)
Definition py_iter (v : value) : io (list value) :=
  match v with
  | VList xs => ret xs
  | VDict items => ret (map (fun kv => VStr (fst kv)) items)
  | VStr s => ret (chars_of s)
  | _ => raise TypeError
  end.

Definition py_str `{Platform} (v : value) : string :=
  match v with
  | VNone => "None"
  | VBool true => "True"
  | VBool false => "False"
  | VInt n => str_int n
  | VFloat f => float_text f
  | VStr s => s
  | VList _ | VDict _ => container_repr v
  end.

Definition time_sleep `{Platform} (seconds : value) : io unit :=
  if sleep_refuses seconds then raise SleepError else emit (Slept seconds).

(** ** The program *)

Definition WIFI_SSID : string := "Your_WiFi_SSID".
Definition WIFI_PASS : string := "Your_WiFi_Password".
Definition API_URL : string := "http://YOUR_LOCAL_IP:8080/api/eink/relevant".
Definition DEVICE_TOKEN : string := "your_secure_device_token".

(** The HTTP library, as [fetch_data] sees it. *)
Inductive attempt (A : Type) :=
| Got (a : A)
| Threw (e : lib_exc).
Arguments Got {A} a.
Arguments Threw {A} e.

Record response := { status_code : Z; json : attempt value }.

Definition http_get : Type := string -> attempt response.

(** The local [params] of [fetch_data]. *)
Definition request_params (battery_level : Z) : string :=
  "?token=" ++ DEVICE_TOKEN ++ "&bat=" ++ str_int battery_level ++ "&res=800x600".

(** [except Exception as e: print("Request failed:", e)], then the
    [return None] the function falls through to. *)
Definition request_failed (e : lib_exc) : io value :=
  if is_Exception e
  then print ("Request failed: " ++ description e) ;; ret VNone
  else raise (Propagated e).

Definition fetch_data (get : http_get) (battery_level : Z) : io value :=
  let params := request_params battery_level in
  emit (Requested (API_URL ++ params)) ;;
  match get (API_URL ++ params) with
  | Threw e => request_failed e
  | Got response =>
      if status_code response =? 200 then
        match json response with
        | Got body => ret body
        | Threw e => request_failed e
        end
      else
        print ("Error: Status code " ++ str_int (status_code response)) ;;
        ret VNone
  end.

Definition display_data `{Platform} (data : value) : io unit :=
  skip <- (if negb (truthy data) then ret true
           else found <- py_in "data" data ;; ret (negb found)) ;;
  if (skip : bool) then ret tt
  else
    print "--- E-Ink Update ---" ;;
    inner <- subscript data "data" ;;
    workspace <- subscript inner "workspace" ;;
    print ("Workspace: " ++ py_str workspace) ;;
    print "Tasks:" ;;
    inner <- subscript data "data" ;;
    tasks <- subscript inner "tasks" ;;
    items <- py_iter tasks ;;
    for_each items (fun task =>
      priority <- subscript task "priority" ;;
      title <- subscript task "title" ;;
      print ("- [" ++ py_str priority ++ "] " ++ py_str title)) ;;
    print "--------------------".

Definition get_battery : Z := 85.

(** [data.get('config', {}).get('refresh_interval', 1800)]. *)
Definition wait_time_lookup (data : value) : io value :=
  config <- method_get data "config" (VDict []) ;;
  method_get config "refresh_interval" (VInt 1800).

(** One pass through the body of [while True] in [main]. *)
Definition main_iteration `{Platform} (get : http_get) : io unit :=
  let bat := get_battery in
  data <- fetch_data get bat ;;
  display_data data ;;
  wait_time <- wait_time_lookup data ;;
  print ("Sleeping for " ++ py_str wait_time ++ "s...") ;;
  time_sleep wait_time.

(** The loop of [main], for [fuel] passes; [net i] is the network as pass
    [i] finds it.  ([connect_wifi], which runs once before the loop, is
    [connect_wifi] below.) *)
Fixpoint main_loop `{Platform} (net : nat -> http_get) (i : nat) (fuel : nat) : io unit :=
  match fuel with
  | O => ret tt
  | S fuel' => main_iteration (net i) ;; main_loop net (S i) fuel'
  end.

(** A platform to run the model on: containers print as a fixed mark, and
    [time.sleep] takes a non-negative number. *)
Definition sample_platform : Platform := {|
  container_repr := fun _ => "<container>";
  sleep_refuses := fun v =>
    match v with
    | VInt n => n <? 0
    | VFloat _ | VBool _ => false
    | _ => true
    end
|}.

Definition is_dict (v : value) : bool :=
  match v with VDict _ => true | _ => false end.

(** The shape the sleep-duration lookup can walk: a dict whose [config],
    when it has one, is a dict. *)
Definition config_walkable (data : value) : bool :=
  match data with
  | VDict d =>
      match dict_lookup "config" d with
      | Some c => is_dict c
      | None => true
      end
  | _ => false
  end.

(** [inner], the value under the top-level key [data], lacks a key the
    renderer reads: it has no [workspace] or no [tasks] (a value that is
    not a dict has neither), or a record of its [tasks] list has no
    [priority] or no [title]. *)
Definition lacks_inner_key (inner : value) : Prop :=
  match inner with
  | VDict m =>
      dict_lookup "workspace" m = None \/
      dict_lookup "tasks" m = None \/
      (exists ts t, dict_lookup "tasks" m = Some (VList ts) /\
                    In (VDict t) ts /\
                    (dict_lookup "priority" t = None \/
                     dict_lookup "title" t = None))
  | _ => True
  end.

(** The interval a dict payload asks for: its [config.refresh_interval],
    and 1800 when it names none. *)
Definition refresh_interval_of (d : list (string * value)) : value :=
  match dict_lookup "config" d with
  | Some (VDict c) =>
      match dict_lookup "refresh_interval" c with
      | Some v => v
      | None => VInt 1800
      end
  | _ => VInt 1800
  end.

(** ** Sample servers *)

(** A server that answers every request with status 200 and [body]. *)
Definition serve_json (body : value) : http_get :=
  fun _ => Got {| status_code := 200; json := Got body |}.


(** No server: the connection is refused. *)
Definition connection_refused : lib_exc :=
  {| is_Exception := true; description := "[Errno 111] ECONNREFUSED" |}.

Definition unreachable : http_get := fun _ => Threw connection_refused.

(** [{"data":{"workspace":"W","tasks":[{"priority":"high","title":"T1"}]}}] *)
Definition one_task_body : value :=
  VDict [("data", VDict [("workspace", VStr "W");
                         ("tasks", VList [VDict [("priority", VStr "high");
                                                 ("title", VStr "T1")]])])].

(** [{"config":{"refresh_interval":60}}] *)
Definition interval_60_body : value :=
  VDict [("config", VDict [("refresh_interval", VInt 60)])].

(** [{"config":null}] *)
Definition null_config_body : value := VDict [("config", VNone)].

(** ** Reading a request back *)

(** The URLs a run asked for, in order. *)
Fixpoint requested_urls (evs : list event) : list string :=
  match evs with
  | [] => []
  | Requested url :: rest => url :: requested_urls rest
  | _ :: rest => requested_urls rest
  end.

Fixpoint before_char (c : ascii) (s : string) : string :=
  match s with
  | EmptyString => EmptyString
  | String a s' => if Ascii.eqb a c then EmptyString else String a (before_char c s')
  end.

Fixpoint after_char (c : ascii) (s : string) : string :=
  match s with
  | EmptyString => EmptyString
  | String a s' => if Ascii.eqb a c then s' else after_char c s'
  end.

Fixpoint split_on (sep : ascii) (s : string) : list string :=
  match s with
  | EmptyString => [EmptyString]
  | String a s' =>
      if Ascii.eqb a sep then EmptyString :: split_on sep s'
      else match split_on sep s' with
           | [] => [String a EmptyString]
           | w :: ws => String a w :: ws
           end
  end.

(** The query parameters of a URL as a server reads them: the text after
    the first [?], cut at every [&], each piece cut at its first [=]. *)
Definition query_params (url : string) : list (string * string) :=
  map (fun kv => (before_char "=" kv, after_char "=" kv))
      (split_on "&" (after_char "?" url)).

Fixpoint string_forall (p : ascii -> bool) (s : string) : bool :=
  match s with
  | EmptyString => true
  | String a s' => p a && string_forall p s'
  end.

Definition digit_or_minus (c : ascii) : bool :=
  let n := nat_of_ascii c in
  (Nat.eqb n 45 || (Nat.leb 48 n && Nat.leb n 57))%bool.

(** The battery level a server reads off a URL: the decimal integer under
    the query parameter [bat]. *)
Fixpoint param_lookup (k : string) (params : list (string * string)) : option string :=
  match params with
  | [] => None
  | (k', v) :: rest => if String.eqb k' k then Some v else param_lookup k rest
  end.

Definition battery_of_url (url : string) : option Z :=
  match param_lookup "bat" (query_params url) with
  | Some text => option_map Z.of_int (NilZero.int_of_string text)
  | None => None
  end.

Definition is_printed (ev : event) : bool :=
  match ev with Printed _ => true | _ => false end.

(** ** The WiFi station and the whole program *)

(** The calls [connect_wifi] makes on [wlan], with the answer where the code
    reads one. *)
Inductive wlan_call :=
| SetActive (on : bool)              (* wlan.active(on) *)
| IsConnected (answer : bool)        (* wlan.isconnected() *)
| Connect (ssid password : string)   (* wlan.connect(ssid, password) *)
| Ifconfig.                          (* wlan.ifconfig() *)

Inductive step :=
| Wlan (c : wlan_call)
| Io (ev : event).

(** The station interface as the program meets it: the answer of its
    [n]-th [isconnected()] (counted from 0), and the address that
    [ifconfig()[0]] gives, a str.  Its calls are taken to return. *)
Record station := { isconnected : nat -> bool; ifconfig0 : string }.

(** A computation that also talks to the station. *)
Definition sys (A : Type) : Type := list step * outcome A.

Definition lift {A} (m : io A) : sys A := (map Io (fst m), snd m).

Definition after {A} (steps : list step) (m : sys A) : sys A :=
  ((steps ++ fst m)%list, snd m).

(** [while not wlan.isconnected(): time.sleep(1)], [polls] calls of
    [isconnected] having been made; [None] when [fuel] tests were not
    enough to leave the loop. *)
Fixpoint wait_connected `{Platform} (wlan : station) (polls fuel : nat)
  : option (sys unit) :=
  match fuel with
  | O => None
  | S fuel' =>
      if isconnected wlan polls then Some ([Wlan (IsConnected true)], Returned tt)
      else
        match lift (time_sleep (VInt 1)) with
        | (steps, Raised e) =>
            Some (Wlan (IsConnected false) :: steps, Raised e)
        | (steps, Returned _) =>
            match wait_connected wlan (S polls) fuel' with
            | Some rest => Some (after (Wlan (IsConnected false) :: steps) rest)
            | None => None
            end
        end
  end.

Definition connect_wifi `{Platform} (wlan : station) (fuel : nat) : option (sys unit) :=
  let connected :=
    ([Wlan Ifconfig; Io (Printed ("WiFi connected: " ++ ifconfig0 wlan))],
     Returned tt) in
  if isconnected wlan 0 then
    Some (after [Wlan (SetActive true); Wlan (IsConnected true)] connected)
  else
    let opening := [Wlan (SetActive true); Wlan (IsConnected false);
                    Io (Printed "Connecting to WiFi...");
                    Wlan (Connect WIFI_SSID WIFI_PASS)] in
    match wait_connected wlan 1 fuel with
    | None => None
    | Some (steps, Raised e) => Some ((opening ++ steps)%list, Raised e)
    | Some (steps, Returned _) => Some (after (opening ++ steps)%list connected)
    end.

(** [main]: [connect_wifi()], then the loop, watched for [passes] passes. *)
Definition main `{Platform} (wlan : station) (net : nat -> http_get)
    (fuel passes : nat) : option (sys unit) :=
  match connect_wifi wlan fuel with
  | None => None
  | Some (steps, Raised e) => Some (steps, Raised e)
  | Some (steps, Returned _) => Some (after steps (lift (main_loop net 0 passes)))
  end.

(** The steps [connect_wifi] takes when the [k]-th [isconnected()] is the
    first to answer true. *)
Fixpoint waiting_steps (k : nat) : list step :=
  match k with
  | O => []
  | S k' => Wlan (IsConnected false) :: Io (Slept (VInt 1)) :: waiting_steps k'
  end.

Definition connect_steps (wlan : station) (k : nat) : list step :=
  let connected := [Wlan Ifconfig; Io (Printed ("WiFi connected: " ++ ifconfig0 wlan))] in
  match k with
  | O => (Wlan (SetActive true) :: Wlan (IsConnected true) :: connected)%list
  | S k' =>
      ([Wlan (SetActive true); Wlan (IsConnected false);
        Io (Printed "Connecting to WiFi...");
        Wlan (Connect WIFI_SSID WIFI_PASS)]
       ++ waiting_steps k' ++ Wlan (IsConnected true) :: connected)%list
  end.

(** A station whose third poll is the first to report a connection. *)
Definition slow_station : station :=
  {| isconnected := fun n => Nat.leb 2 n; ifconfig0 := "192.168.1.50" |}.

(** A station that never reports a connection. *)
Definition dead_station : station :=
  {| isconnected := fun _ => false; ifconfig0 := "0.0.0.0" |}.

(** A request cut short by an interrupt, which is no [Exception]. *)
Definition keyboard_interrupt : lib_exc :=
  {| is_Exception := false; description := "KeyboardInterrupt" |}.

Definition interrupted : http_get := fun _ => Threw keyboard_interrupt.

(** A computation that has only printed. *)
Definition only_prints {A} (m : io A) : Prop :=
  forallb is_printed (fst m) = true.

(** A [tasks] value with nothing to walk although it is no list. *)
Definition is_empty_dict_or_str (v : value) : bool :=
  match v with
  | VDict [] => true
  | VStr EmptyString => true
  | _ => false
  end.

Definition is_list (v : value) : bool :=
  match v with VList _ => true | _ => false end.

(** What the three header lines are followed by. *)
Definition after_header `{Platform} {A} (ws : value) (m : io A) : io A :=
  ((Printed "--- E-Ink Update ---" :: Printed ("Workspace: " ++ py_str ws)
      :: Printed "Tasks:" :: fst m)%list,
   snd m).

(** The exception the body of the task loop ends in on a task it cannot
    print. *)
Definition task_fault (task : value) (e : pyexc) : Prop :=
  (is_dict task = false /\ e = TypeError) \/
  (exists t, task = VDict t /\ dict_lookup "priority" t = None /\
             e = KeyError "priority") \/
  (exists t p, task = VDict t /\ dict_lookup "priority" t = Some p /\
               dict_lookup "title" t = None /\ e = KeyError "title").

(** The [wlan.connect] calls among some steps, as (ssid, password). *)
Fixpoint connect_calls (steps : list step) : list (string * string) :=
  match steps with
  | [] => []
  | Wlan (Connect ssid password) :: rest => (ssid, password) :: connect_calls rest
  | _ :: rest => connect_calls rest
  end.

(** A network that serves [{"config":{"refresh_interval":60}}] to the first
    pass and refuses every later connection. *)
Definition flaky_net : nat -> http_get :=
  fun i => match i with
           | O => serve_json interval_60_body
           | S _ => unreachable
           end.

(** Whether [data] is a dict that holds the key [data]. *)
Definition has_data_key (data : value) : bool :=
  match data with
  | VDict d => match dict_lookup "data" d with Some _ => true | None => false end
  | _ => false
  end.

(** The inputs the guard of [display_data] turns away: [None], a falsy
    bool or number, a str without the text [data], a list without the
    element ['data'], a dict without the key [data]. *)
Definition skipped_by_guard (data : value) : bool :=
  match data with
  | VNone => true
  | VBool b => negb b
  | VInt n => n =? 0
  | VFloat f => negb (float_nonzero f)
  | VStr s => negb (is_substring "data" s)
  | VList xs => negb (existsb (is_str "data") xs)
  | VDict d => match dict_lookup "data" d with Some _ => false | None => true end
  end.

(** The interval a present payload names, read by key presence alone:
    its [config.refresh_interval] when that path is there, else 1800. *)
Definition named_interval (data : value) : value :=
  match data with
  | VDict d => refresh_interval_of d
  | _ => VInt 1800
  end.

(** The decimal text of a level between 0 and 100, digit by digit. *)
Definition digit_char (d : Z) : ascii := ascii_of_nat (48 + Z.to_nat d).

Definition level_text (b : Z) : string :=
  if b <? 10 then String (digit_char b) EmptyString
  else if b <? 100 then
    String (digit_char (b / 10)) (String (digit_char (b mod 10)) EmptyString)
  else "100".

(** ** Laws of the effect monad *)

Lemma bind_returned {A B} (evs : list event) (a : A) (k : A -> io B) :
  bind (evs, Returned a) k = ((evs ++ fst (k a))%list, snd (k a)).
Proof. unfold bind. destruct (k a); reflexivity. Qed.

Lemma bind_raised {A B} (evs : list event) (e : pyexc) (k : A -> io B) :
  bind (evs, Raised e) k = (evs, Raised e).
Proof. reflexivity. Qed.

Lemma bind_ret_l {A B} (a : A) (k : A -> io B) : bind (ret a) k = k a.
Proof. unfold ret. rewrite bind_returned. destruct (k a); reflexivity. Qed.

Lemma bind_assoc {A B C} (m : io A) (k : A -> io B) (h : B -> io C) :
  bind (bind m k) h = bind m (fun a => bind (k a) h).
Proof.
  destruct m as [evs [a|e]]; [|reflexivity].
  unfold bind at 2 3. destruct (k a) as [evs' [b|e']]; simpl.
  - destruct (h b) as [evs'' r]. now rewrite app_assoc.
  - reflexivity.
Qed.

Lemma faults_bind_l {A B} (m : io A) (k : A -> io B) :
  faults m -> faults (bind m k).
Proof.
  intros [e He]. destruct m as [evs r]; simpl in He; subst r.
  exists e. reflexivity.
Qed.

Lemma faults_bind_r {A B} (evs : list event) (a : A) (k : A -> io B) :
  faults (k a) -> faults (bind (evs, Returned a) k).
Proof.
  intros [e He]. exists e. rewrite bind_returned. exact He.
Qed.

Lemma faults_is_fault {A} (m : io A) : faults m <-> is_fault m = true.
Proof.
  unfold faults, is_fault. destruct (snd m); split.
  - intros [e He]; discriminate.
  - discriminate.
  - reflexivity.
  - intros _. now exists e.
Qed.

Lemma io_cases {A} (m : io A) :
  (exists evs a, m = (evs, Returned a)) \/ faults m.
Proof.
  destruct m as [evs [a|e]].
  - left. now exists evs, a.
  - right. now exists e.
Qed.

(** ** The renderer *)

Section Renderer.
Context `{Platform}.

Lemma dict_lookup_nonempty (k : string) (items : list (string * value)) (v : value) :
  dict_lookup k items = Some v -> truthy (VDict items) = true.
Proof. destruct items; [discriminate | reflexivity]. Qed.

(** Past the guard: what [display_data] does once [data] is a dict holding
    the key [data]. *)
Lemma display_data_present (d : list (string * value)) (inner : value) :
  dict_lookup "data" d = Some inner ->
  display_data (VDict d) =
    (print "--- E-Ink Update ---" ;;
     workspace <- subscript inner "workspace" ;;
     print ("Workspace: " ++ py_str workspace) ;;
     print "Tasks:" ;;
     tasks <- subscript inner "tasks" ;;
     items <- py_iter tasks ;;
     for_each items (fun task =>
       priority <- subscript task "priority" ;;
       title <- subscript task "title" ;;
       print ("- [" ++ py_str priority ++ "] " ++ py_str title)) ;;
     print "--------------------").
Proof.
  intros Hd. unfold display_data.
  rewrite (dict_lookup_nonempty _ _ _ Hd). cbn [negb].
  unfold py_in, subscript at 1 3. rewrite Hd.
  rewrite !bind_ret_l. cbn [negb].
  f_equal.
Qed.

Lemma for_each_lines (ts : list (list (string * value))) (lines : list string) :
  Forall2 (fun t line => exists p ti,
             dict_lookup "priority" t = Some p /\
             dict_lookup "title" t = Some ti /\
             line = "- [" ++ py_str p ++ "] " ++ py_str ti) ts lines ->
  for_each (map VDict ts) (fun task =>
      priority <- subscript task "priority" ;;
      title <- subscript task "title" ;;
      print ("- [" ++ py_str priority ++ "] " ++ py_str title))
  = (map Printed lines, Returned tt).
Proof.
  induction 1 as [|t line ts lines (p & ti & Hp & Ht & ->) _ IH].
  - reflexivity.
  - cbn [map for_each]. rewrite IH.
    unfold subscript. rewrite Hp, Ht. reflexivity.
Qed.

Lemma for_each_faults {A} (xs : list A) (body : A -> io unit) (x : A) :
  In x xs -> faults (body x) -> faults (for_each xs body).
Proof.
  induction xs as [|a xs IH]; intros Hin Hx; [destruct Hin|].
  cbn [for_each].
  destruct Hin as [-> | Hin].
  - now apply faults_bind_l.
  - destruct (io_cases (body a)) as [(evs & u & ->) | Ha].
    + apply faults_bind_r. now apply IH.
    + now apply faults_bind_l.
Qed.

(** Stopped by the guard: a dict without the key [data]. *)
Lemma display_data_no_data_key (items : list (string * value)) :
  dict_lookup "data" items = None ->
  display_data (VDict items) = ([], Returned tt).
Proof.
  intros Hnone. unfold display_data.
  destruct items as [|kv rest]; [reflexivity|].
  cbn [truthy negb]. unfold py_in. rewrite Hnone. reflexivity.
Qed.

(** C7, as the code has it: [display_data] returns having printed nothing
    and raised nothing exactly on the inputs its guard turns away: [None],
    a dict without the key [data], a falsy bool or number, a list without
    the element ['data'], a str without the text [data].  On the other
    inputs that are no dict (a truthy bool or number, a list with the
    element ['data'], a str containing [data]) it raises TypeError. *)
Theorem display_data_silent (data : value) :
  (display_data data = ([], Returned tt) <-> skipped_by_guard data = true) /\
  (is_dict data = false -> skipped_by_guard data = false ->
   exists evs, display_data data = (evs, Raised TypeError)).
Proof.
  destruct data as [|b|n|f|s|xs|d]; cbn [skipped_by_guard is_dict].
  - split; [now split | discriminate].
  - destruct b; split; try (now split); try discriminate.
    intros _ _. now exists [].
  - unfold display_data. cbn [truthy].
    destruct (n =? 0); split; try (now split); try discriminate.
    intros _ _. now exists [].
  - unfold display_data. cbn [truthy].
    destruct (float_nonzero f); split; try (now split); try discriminate.
    intros _ _. now exists [].
  - assert (Hs : display_data (VStr s) =
                 if is_substring "data" s
                 then ([Printed "--- E-Ink Update ---"], Raised TypeError)
                 else ([], Returned tt)).
    { unfold display_data. destruct s as [|c s]; [reflexivity|].
      cbn [truthy negb py_in String.eqb]. rewrite bind_ret_l.
      now destruct (is_substring "data" (String c s)). }
    rewrite Hs. destruct (is_substring "data" s); split;
      try (now split); try discriminate.
    intros _ _. now eexists.
  - assert (Hxs : display_data (VList xs) =
                  if existsb (is_str "data") xs
                  then ([Printed "--- E-Ink Update ---"], Raised TypeError)
                  else ([], Returned tt)).
    { unfold display_data. destruct xs as [|x xs]; [reflexivity|].
      cbn [truthy negb py_in]. rewrite bind_ret_l.
      now destruct (existsb (is_str "data") (x :: xs)). }
    rewrite Hxs. destruct (existsb (is_str "data") xs); split;
      try (now split); try discriminate.
    intros _ _. now eexists.
  - split; [|discriminate].
    destruct (dict_lookup "data" d) as [inner|] eqn:Hd.
    + split; [|discriminate].
      rewrite (display_data_present _ _ Hd). unfold print at 1, emit.
      rewrite bind_returned. cbn [app]. discriminate.
    + now rewrite (display_data_no_data_key _ Hd).
Qed.


(** C9: with [workspace] present and [tasks] the empty list, [display_data]
    raises nothing and prints the banner, the workspace line, the [Tasks:]
    header and the closing rule, with no task line between them. *)
Theorem display_data_no_tasks (d m : list (string * value)) (ws : value) :
  dict_lookup "data" d = Some (VDict m) ->
  dict_lookup "workspace" m = Some ws ->
  dict_lookup "tasks" m = Some (VList []) ->
  display_data (VDict d) =
    ([Printed "--- E-Ink Update ---"; Printed ("Workspace: " ++ py_str ws);
      Printed "Tasks:"; Printed "--------------------"],
     Returned tt).
Proof.
  intros Hd Hw Ht.
  rewrite (display_data_present _ _ Hd).
  unfold subscript. rewrite Hw, Ht. reflexivity.
Qed.

Lemma task_line_faults (t : list (string * value)) :
  dict_lookup "priority" t = None \/ dict_lookup "title" t = None ->
  faults (priority <- subscript (VDict t) "priority" ;;
          title <- subscript (VDict t) "title" ;;
          print ("- [" ++ py_str priority ++ "] " ++ py_str title)).
Proof.
  intros Hmiss. unfold subscript.
  destruct (dict_lookup "priority" t) as [p|].
  - destruct Hmiss as [Hp | Ht]; [discriminate|]. rewrite Ht.
    now exists (KeyError "title").
  - now exists (KeyError "priority").
Qed.

Lemma print_then {A} (text : string) (k : io A) :
  (print text ;; k) = (Printed text :: fst k, snd k).
Proof. unfold print, emit. now rewrite bind_returned. Qed.

(** When [data] holds something that is not a dict, the first subscript
    of the workspace line raises. *)
Lemma display_data_inner_not_dict (d : list (string * value)) (inner : value) :
  dict_lookup "data" d = Some inner ->
  is_dict inner = false ->
  display_data (VDict d) = ([Printed "--- E-Ink Update ---"], Raised TypeError).
Proof.
  intros Hd Hnot.
  rewrite (display_data_present _ _ Hd), print_then.
  destruct inner; try reflexivity. discriminate.
Qed.

(** C8: when the top-level [data] key is present but the value under it
    lacks [workspace] or [tasks], or a record of its [tasks] list lacks
    [priority] or [title], [display_data] prints its banner and then ends
    in an uncaught exception. *)
Theorem display_data_missing_inner_key (d : list (string * value)) (inner : value) :
  dict_lookup "data" d = Some inner ->
  lacks_inner_key inner ->
  exists evs e,
    display_data (VDict d) = (Printed "--- E-Ink Update ---" :: evs, Raised e).
Proof.
  intros Hd Hmiss.
  destruct (is_dict inner) eqn:Hdict;
    [| rewrite (display_data_inner_not_dict _ _ Hd Hdict); now eexists _, _].
  destruct inner as [| | | | | |m]; try discriminate. cbn [lacks_inner_key] in Hmiss.
  rewrite (display_data_present _ _ Hd), print_then.
  match goal with |- exists evs e, (_ :: fst ?k, snd ?k) = _ =>
    enough (Hk : faults k) by
      (destruct Hk as [e He]; exists (fst k), e; now rewrite He)
  end.
  unfold subscript at 1.
  destruct (dict_lookup "workspace" m) as [ws|] eqn:Hw;
    [| now exists (KeyError "workspace")].
  unfold ret. apply faults_bind_r.
  unfold print, emit. do 2 apply faults_bind_r.
  unfold subscript at 1.
  destruct Hmiss as [Hw' | [Ht | (ts & t & Ht & Hin & Hfield)]].
  - discriminate.
  - rewrite Ht. now exists (KeyError "tasks").
  - rewrite Ht. unfold ret. apply faults_bind_r.
    cbn [py_iter]. unfold ret. apply faults_bind_r.
    apply faults_bind_l.
    apply (for_each_faults _ _ (VDict t) Hin).
    now apply task_line_faults.
Qed.

End Renderer.

(** ** The fetch boundary *)

Section Fetch.

Lemma string_of_uint_digits (d : Decimal.uint) :
  string_forall digit_or_minus (NilEmpty.string_of_uint d) = true.
Proof. induction d; simpl; auto. Qed.

Lemma str_int_charset (n : Z) : string_forall digit_or_minus (str_int n) = true.
Proof.
  assert (Hu : forall d, string_forall digit_or_minus (NilZero.string_of_uint d) = true).
  { intros d. destruct d; try reflexivity;
      unfold NilZero.string_of_uint; apply string_of_uint_digits. }
  unfold str_int, NilZero.string_of_int.
  destruct (Z.to_int n) as [d|d]; [apply Hu|].
  cbn [string_forall]. now rewrite Hu.
Qed.

Lemma split_on_app (sep : ascii) (p : ascii -> bool) (s r : string) :
  p sep = false -> string_forall p s = true ->
  split_on sep (s ++ String sep r) = s :: split_on sep r.
Proof.
  intros Hsep. induction s as [|a s IH]; simpl; intros Hs.
  - now rewrite Ascii.eqb_refl.
  - apply andb_prop in Hs as [Ha Hs].
    destruct (Ascii.eqb_spec a sep) as [-> | _]; [congruence|].
    now rewrite (IH Hs).
Qed.

Lemma string_forall_app (p : ascii -> bool) (s r : string) :
  string_forall p (s ++ r) = (string_forall p s && string_forall p r)%bool.
Proof. induction s as [|a s IH]; simpl; [reflexivity|]. now rewrite IH, andb_assoc. Qed.

Lemma string_forall_impl (p q : ascii -> bool) (s : string) :
  (forall c, p c = true -> q c = true) ->
  string_forall p s = true -> string_forall q s = true.
Proof.
  intros Hpq. induction s as [|a s IH]; simpl; [reflexivity|].
  intros Hs. apply andb_prop in Hs as [Ha Hs].
  now rewrite (Hpq _ Ha), (IH Hs).
Qed.

Lemma str_int_no_ampersand (n : Z) :
  string_forall (fun c => negb (Ascii.eqb c "&")) (str_int n) = true.
Proof.
  apply (string_forall_impl digit_or_minus); [|apply str_int_charset].
  intros c Hc. destruct (Ascii.eqb_spec c "&") as [-> | _]; [discriminate | reflexivity].
Qed.

Lemma query_params_request (b : Z) :
  query_params (API_URL ++ request_params b) =
    [("token", DEVICE_TOKEN); ("bat", str_int b); ("res", "800x600")].
Proof.
  unfold query_params.
  change (after_char "?" (API_URL ++ request_params b))
    with ("token=your_secure_device_token"
          ++ String "&" (("bat=" ++ str_int b) ++ String "&" "res=800x600")).
  set (not_amp := fun c => negb (Ascii.eqb c "&")).
  rewrite (split_on_app "&" not_amp) by reflexivity.
  rewrite (split_on_app "&" not_amp); [reflexivity | reflexivity |].
  rewrite string_forall_app, str_int_no_ampersand. reflexivity.
Qed.

Lemma int_of_str_int (n : Z) :
  NilZero.int_of_string (str_int n) = Some (Z.to_int n).
Proof.
  unfold str_int. apply NilZero.isi; destruct n; simpl; try discriminate.
  all: intros [= Hnil]; now apply (Unsigned.to_uint_nonnil p).
Qed.

Lemma level_text_upto_100 :
  forallb (fun n => String.eqb (str_int (Z.of_nat n)) (level_text (Z.of_nat n)))
          (seq 0 101) = true.
Proof. vm_compute. reflexivity. Qed.

(** C3: for every integer battery value [b] (those of [0,100] among them),
    [fetch_data] asks for exactly one URL: the configured base URL followed
    by [?token=], the configured [DEVICE_TOKEN], [&bat=], the decimal text
    of [b], and [&res=800x600]; read back as query parameters it carries
    [token] = [DEVICE_TOKEN], [bat] = [b] and [res] = [800x600]; the text
    under [bat] parses back to [b] as a decimal integer, and for [b] in
    [0,100] it is the one, two or three digits of [b]. *)
Theorem fetch_data_request_url (get : http_get) (b : Z) :
  let url := API_URL ++ "?token=" ++ DEVICE_TOKEN ++ "&bat=" ++ str_int b
             ++ "&res=800x600" in
  requested_urls (fst (fetch_data get b)) = [url] /\
  query_params url =
    [("token", DEVICE_TOKEN); ("bat", str_int b); ("res", "800x600")] /\
  battery_of_url url = Some b /\
  (0 <= b <= 100 -> str_int b = level_text b).
Proof.
  intros url. split; [|split; [|split]].
  - unfold fetch_data, request_failed.
    change (API_URL ++ request_params b) with url.
    destruct (get url) as [resp | e].
    + destruct (status_code resp =? 200); [|reflexivity].
      destruct (json resp) as [body | e]; [reflexivity|].
      destruct (is_Exception e); reflexivity.
    + destruct (is_Exception e); reflexivity.
  - unfold query_params.
    change (after_char "?" url)
      with ("token=your_secure_device_token"
            ++ String "&" (("bat=" ++ str_int b) ++ String "&" "res=800x600")).
    set (not_amp := fun c => negb (Ascii.eqb c "&")).
    rewrite (split_on_app "&" not_amp) by reflexivity.
    rewrite (split_on_app "&" not_amp);
      [reflexivity | reflexivity |].
    rewrite string_forall_app, str_int_no_ampersand. reflexivity.
  - change url with (API_URL ++ request_params b).
    unfold battery_of_url. rewrite query_params_request.
    cbn [param_lookup String.eqb Ascii.eqb Bool.eqb].
    rewrite int_of_str_int. cbn [option_map].
    now rewrite DecimalZ.of_to.
  - intros Hrange.
    pose proof level_text_upto_100 as Hall. rewrite forallb_forall in Hall.
    specialize (Hall (Z.to_nat b)).
    rewrite Z2Nat.id in Hall by lia.
    apply String.eqb_eq, Hall, in_seq. lia.
Qed.

Lemma fetch_data_ok (get : http_get) (b : Z) (resp : response) (body : value) :
  get (API_URL ++ request_params b) = Got resp ->
  status_code resp = 200 ->
  json resp = Got body ->
  fetch_data get b =
    ([Requested (API_URL ++ request_params b)], Returned body).
Proof.
  intros Hget Hstatus Hjson. unfold fetch_data.
  rewrite Hget, Hstatus, Hjson. reflexivity.
Qed.

(** C6: when the request raises an exception that is an [Exception]
    (a transport error out of [urequests.get], or a parsing error out of
    [response.json()] on a 200 response), [fetch_data] logs
    [Request failed:] with the exception's text and returns [None]; it
    raises nothing. *)
Theorem fetch_data_catches (get : http_get) (b : Z) (e : lib_exc) :
  is_Exception e = true ->
  get (API_URL ++ request_params b) = Threw e \/
  (exists resp, get (API_URL ++ request_params b) = Got resp /\
                status_code resp = 200 /\ json resp = Threw e) ->
  fetch_data get b =
    ([Requested (API_URL ++ request_params b);
      Printed ("Request failed: " ++ description e)],
     Returned VNone).
Proof.
  intros Hexc [Hget | (resp & Hget & Hstatus & Hjson)];
    unfold fetch_data, request_failed; rewrite Hget.
  - rewrite Hexc. reflexivity.
  - rewrite Hstatus, Hjson, Hexc. reflexivity.
Qed.

(** What [except Exception] lets through: an exception that is not an
    [Exception] leaves [fetch_data]. *)
Lemma fetch_data_propagates (get : http_get) (b : Z) (e : lib_exc) :
  is_Exception e = false ->
  get (API_URL ++ request_params b) = Threw e ->
  fetch_data get b =
    ([Requested (API_URL ++ request_params b)], Raised (Propagated e)).
Proof.
  intros Hexc Hget. unfold fetch_data, request_failed.
  rewrite Hget, Hexc. reflexivity.
Qed.

End Fetch.

(** ** The loop body *)

Section Loop.
Context `{Platform}.


Lemma main_iteration_after_fetch (get : http_get) (evs : list event) (data : value) :
  fetch_data get get_battery = (evs, Returned data) ->
  main_iteration get =
    let rest := (display_data data ;;
                 wait_time <- wait_time_lookup data ;;
                 print ("Sleeping for " ++ py_str wait_time ++ "s...") ;;
                 time_sleep wait_time) in
    ((evs ++ fst rest)%list, snd rest).
Proof.
  intros Hfetch. unfold main_iteration. cbv zeta.
  rewrite Hfetch. rewrite bind_returned. reflexivity.
Qed.

Lemma main_iteration_sleep (get : http_get) (evs evs' : list event) (data w : value) :
  fetch_data get get_battery = (evs, Returned data) ->
  display_data data = (evs', Returned tt) ->
  wait_time_lookup data = ([], Returned w) ->
  main_iteration get =
    ((evs ++ evs' ++ Printed ("Sleeping for " ++ py_str w ++ "s...")
          :: fst (time_sleep w))%list,
     snd (time_sleep w)).
Proof.
  intros Hfetch Hshow Hwait.
  rewrite (main_iteration_after_fetch _ _ _ Hfetch). cbv zeta.
  rewrite Hshow, Hwait. rewrite bind_returned.
  change (@nil event, Returned w) with (ret w).
  rewrite bind_ret_l, print_then.
  reflexivity.
Qed.

Lemma wait_time_lookup_dict (d : list (string * value)) :
  wait_time_lookup (VDict d) =
    match dict_lookup "config" d with
    | None => ret (VInt 1800)
    | Some (VDict c) =>
        match dict_lookup "refresh_interval" c with
        | Some v => ret v
        | None => ret (VInt 1800)
        end
    | Some _ => raise (AttributeError "get")
    end.
Proof.
  unfold wait_time_lookup, method_get at 1.
  destruct (dict_lookup "config" d) as [c|]; rewrite bind_ret_l.
  - destruct c; reflexivity.
  - reflexivity.
Qed.

Lemma main_loop_stops_at_fault (net : nat -> http_get) (i fuel : nat) :
  faults (main_iteration (net i)) ->
  main_loop net i (S fuel) = main_iteration (net i).
Proof.
  intros [e He]. cbn [main_loop].
  destruct (main_iteration (net i)) as [evs r]. simpl in He. now subst r.
Qed.

(** C4, as the code has it: for a payload that is a dict, the
    sleep-duration lookup gives the value of [config.refresh_interval]
    when [config] is a dict holding that field, and 1800 when the payload
    has no [config] or its [config] is a dict without [refresh_interval];
    when [config] is there but is no dict the lookup raises AttributeError
    instead of falling back to 1800.  When rendering returned, the value
    looked up is the one the pass announces and hands to [time.sleep]. *)
Theorem wait_time_lookup_value (d : list (string * value)) :
  (forall c v, dict_lookup "config" d = Some (VDict c) ->
               dict_lookup "refresh_interval" c = Some v ->
               wait_time_lookup (VDict d) = ([], Returned v)) /\
  (dict_lookup "config" d = None ->
   wait_time_lookup (VDict d) = ([], Returned (VInt 1800))) /\
  (forall c, dict_lookup "config" d = Some (VDict c) ->
             dict_lookup "refresh_interval" c = None ->
             wait_time_lookup (VDict d) = ([], Returned (VInt 1800))) /\
  (forall get evs evs' w,
      fetch_data get get_battery = (evs, Returned (VDict d)) ->
      display_data (VDict d) = (evs', Returned tt) ->
      wait_time_lookup (VDict d) = ([], Returned w) ->
      sleep_refuses w = false ->
      main_iteration get =
        ((evs ++ evs' ++ [Printed ("Sleeping for " ++ py_str w ++ "s...");
                          Slept w])%list,
         Returned tt)) /\
  (forall c, dict_lookup "config" d = Some c ->
             is_dict c = false ->
             wait_time_lookup (VDict d) = ([], Raised (AttributeError "get"))).
Proof.
  rewrite wait_time_lookup_dict. repeat split.
  - intros c v -> ->. reflexivity.
  - intros ->. reflexivity.
  - intros c -> ->. reflexivity.
  - intros get evs evs' w Hfetch Hshow Hwait Hsleep.
    rewrite <- wait_time_lookup_dict in Hwait.
    rewrite (main_iteration_sleep _ _ _ _ _ Hfetch Hshow Hwait).
    unfold time_sleep. rewrite Hsleep. reflexivity.
  - intros c -> Hnot. destruct c; try reflexivity. discriminate.
Qed.

Lemma wait_time_lookup_unwalkable (data : value) :
  config_walkable data = false ->
  wait_time_lookup data = ([], Raised (AttributeError "get")).
Proof.
  destruct data; try reflexivity.
  rewrite wait_time_lookup_dict. cbn [config_walkable].
  destruct (dict_lookup "config" items) as [c|]; [|discriminate].
  destruct c; try reflexivity. discriminate.
Qed.

Lemma wait_time_lookup_walkable (d : list (string * value)) :
  config_walkable (VDict d) = true ->
  wait_time_lookup (VDict d) = ([], Returned (refresh_interval_of d)).
Proof.
  rewrite wait_time_lookup_dict. unfold refresh_interval_of. cbn [config_walkable].
  destruct (dict_lookup "config" d) as [c|]; [|reflexivity].
  destruct c; try discriminate. intros _.
  now destruct (dict_lookup "refresh_interval" items).
Qed.

(** C1, as the code has it: in a pass whose fetch yields [None], rendering
    prints nothing and the sleep-duration lookup raises an uncaught
    AttributeError, so the pass ends there; and on any fetch result the
    lookup raises exactly when the result is not a dict whose [config] is
    missing or a dict: [None] is one such result, a list or a dict with a
    null [config] are others. *)
Theorem wait_time_lookup_faults :
  (forall get evs,
      fetch_data get get_battery = (evs, Returned VNone) ->
      main_iteration get = (evs, Raised (AttributeError "get"))) /\
  (forall data,
      faults (wait_time_lookup data) <-> config_walkable data = false).
Proof.
  split.
  - intros get evs Hfetch.
    rewrite (main_iteration_after_fetch _ _ _ Hfetch). cbn.
    now rewrite app_nil_r.
  - intros data. split.
    + intros [e He]. destruct (config_walkable data) eqn:Hwalk; [|reflexivity].
      destruct data; try discriminate.
      rewrite (wait_time_lookup_walkable _ Hwalk) in He. discriminate.
    + intros Hwalk. rewrite (wait_time_lookup_unwalkable _ Hwalk).
      now exists (AttributeError "get").
Qed.

(** C10, as the code has it: when the fetch result is a dict without the
    key [data] whose [config] is missing or a dict, rendering is skipped,
    the sleep-duration lookup returns [config.refresh_interval] or else
    1800, and the pass goes on to announce that value and hand it to
    [time.sleep]. *)
Theorem main_iteration_without_data
    (get : http_get) (evs : list event) (d : list (string * value)) :
  fetch_data get get_battery = (evs, Returned (VDict d)) ->
  dict_lookup "data" d = None ->
  config_walkable (VDict d) = true ->
  display_data (VDict d) = ([], Returned tt) /\
  wait_time_lookup (VDict d) = ([], Returned (refresh_interval_of d)) /\
  main_iteration get =
    ((evs ++ Printed ("Sleeping for " ++ py_str (refresh_interval_of d) ++ "s...")
          :: fst (time_sleep (refresh_interval_of d)))%list,
     snd (time_sleep (refresh_interval_of d))).
Proof.
  intros Hfetch Hnodata Hwalk.
  pose proof (display_data_no_data_key _ Hnodata) as Hshow.
  pose proof (wait_time_lookup_walkable _ Hwalk) as Hwait.
  repeat split; trivial.
  now rewrite (main_iteration_sleep _ _ _ _ _ Hfetch Hshow Hwait).
Qed.

End Loop.

(** ** The properties at sample inputs *)

Example request_url_85 :
  API_URL ++ request_params get_battery =
  "http://YOUR_LOCAL_IP:8080/api/eink/relevant?token=your_secure_device_token&bat=85&res=800x600".
Proof. reflexivity. Qed.


Lemma display_data_silent_samples :
  @display_data sample_platform VNone = ([], Returned tt) /\
  @display_data sample_platform interval_60_body = ([], Returned tt) /\
  exists evs, @display_data sample_platform (VInt 5) = (evs, Raised TypeError).
Proof.
  split; [|split].
  - apply (proj2 (proj1 (@display_data_silent sample_platform VNone))).
    reflexivity.
  - apply (proj2 (proj1 (@display_data_silent sample_platform interval_60_body))).
    reflexivity.
  - apply (proj2 (@display_data_silent sample_platform (VInt 5))); reflexivity.
Defined.

Lemma display_data_task_without_title :
  exists evs e,
    @display_data sample_platform
      (VDict [("data", VDict [("workspace", VStr "W");
                              ("tasks", VList [VDict [("priority", VStr "high")]])])])
    = (Printed "--- E-Ink Update ---" :: evs, Raised e).
Proof.
  apply (@display_data_missing_inner_key sample_platform _
           (VDict [("workspace", VStr "W");
                   ("tasks", VList [VDict [("priority", VStr "high")]])])).
  - reflexivity.
  - right. right.
    exists [VDict [("priority", VStr "high")]], [("priority", VStr "high")].
    split; [reflexivity|]. split; [left; reflexivity|]. right. reflexivity.
Defined.

Lemma display_data_no_tasks_sample :
  @display_data sample_platform
    (VDict [("data", VDict [("workspace", VStr "W"); ("tasks", VList [])])])
  = ([Printed "--- E-Ink Update ---"; Printed "Workspace: W";
      Printed "Tasks:"; Printed "--------------------"],
     Returned tt).
Proof.
  apply (@display_data_no_tasks sample_platform _
           [("workspace", VStr "W"); ("tasks", VList [])] (VStr "W"));
    reflexivity.
Defined.


Lemma fetch_data_connection_refused :
  fetch_data unreachable 85 =
    ([Requested (API_URL ++ request_params 85);
      Printed "Request failed: [Errno 111] ECONNREFUSED"],
     Returned VNone).
Proof.
  apply (fetch_data_catches unreachable 85 connection_refused).
  - reflexivity.
  - left. reflexivity.
Defined.

Lemma wait_time_lookup_60_and_default :
  wait_time_lookup interval_60_body = ([], Returned (VInt 60)) /\
  wait_time_lookup one_task_body = ([], Returned (VInt 1800)) /\
  @main_iteration sample_platform (serve_json interval_60_body) =
    ([Requested (API_URL ++ request_params 85);
      Printed "Sleeping for 60s..."; Slept (VInt 60)],
     Returned tt).
Proof.
  split; [|split].
  - apply (proj1 (@wait_time_lookup_value sample_platform
                    [("config", VDict [("refresh_interval", VInt 60)])])
             [("refresh_interval", VInt 60)] (VInt 60)); reflexivity.
  - apply (proj1 (proj2 (@wait_time_lookup_value sample_platform _))).
    reflexivity.
  - apply (proj1 (proj2 (proj2 (proj2 (@wait_time_lookup_value sample_platform
                    [("config", VDict [("refresh_interval", VInt 60)])]))))
             (serve_json interval_60_body)
             [Requested (API_URL ++ request_params 85)] [] (VInt 60));
      reflexivity.
Defined.

Lemma main_iteration_unreachable :
  @main_iteration sample_platform unreachable =
    ([Requested (API_URL ++ request_params 85);
      Printed "Request failed: [Errno 111] ECONNREFUSED"],
     Raised (AttributeError "get")).
Proof.
  apply (proj1 (@wait_time_lookup_faults sample_platform)). reflexivity.
Defined.

Lemma main_iteration_without_data_60 :
  @display_data sample_platform interval_60_body = ([], Returned tt) /\
  wait_time_lookup interval_60_body = ([], Returned (VInt 60)) /\
  @main_iteration sample_platform (serve_json interval_60_body) =
    ([Requested (API_URL ++ request_params 85);
      Printed "Sleeping for 60s..."; Slept (VInt 60)],
     Returned tt).
Proof.
  apply (@main_iteration_without_data sample_platform
           (serve_json interval_60_body)
           [Requested (API_URL ++ request_params 85)]
           [("config", VDict [("refresh_interval", VInt 60)])]);
    reflexivity.
Defined.

Lemma fetch_data_request_url_85 :
  requested_urls (fst (fetch_data unreachable 85)) =
    ["http://YOUR_LOCAL_IP:8080/api/eink/relevant?token=your_secure_device_token&bat=85&res=800x600"] /\
  str_int 85 = "85".
Proof.
  split.
  - apply (proj1 (fetch_data_request_url unreachable 85)).
  - apply (proj2 (proj2 (proj2 (fetch_data_request_url unreachable 85)))). lia.
Defined.

(** ** Where the guard of the renderer does not stop a body without [data] *)

(** The bodies [5] and ["metadata"] hold no key [data], and
    [display_data] raises TypeError on them, the second time after the
    banner: lacking the key does not make the renderer a silent no-op. *)
Lemma display_data_number_raises :
  has_data_key (VInt 5) = false /\
  @display_data sample_platform (VInt 5) = ([], Raised TypeError) /\
  has_data_key (VStr "metadata") = false /\
  @display_data sample_platform (VStr "metadata") =
    ([Printed "--- E-Ink Update ---"], Raised TypeError) /\
  ~ (forall (P : Platform) data,
        data = VNone \/ has_data_key data = false ->
        @display_data P data = ([], Returned tt)).
Proof.
  repeat split.
  intros Hclaim.
  specialize (Hclaim sample_platform (VInt 5) (or_intror eq_refl)).
  discriminate.
Qed.

(** ** Where the lookup does not fall back to the default *)

(** The bodies [{"config":null}] and [[1]] are present and name no
    [refresh_interval], and the sleep-duration lookup raises on them
    instead of giving 1800. *)
Lemma null_config_no_default :
  null_config_body <> VNone /\
  named_interval null_config_body = VInt 1800 /\
  wait_time_lookup null_config_body = ([], Raised (AttributeError "get")) /\
  named_interval (VList [VInt 1]) = VInt 1800 /\
  wait_time_lookup (VList [VInt 1]) = ([], Raised (AttributeError "get")) /\
  ~ (forall data, data <> VNone ->
        wait_time_lookup data = ([], Returned (named_interval data))).
Proof.
  split; [discriminate|]. repeat split.
  intros Hclaim.
  assert (Hpresent : null_config_body <> VNone) by discriminate.
  specialize (Hclaim null_config_body Hpresent). discriminate.
Qed.

(** ** Where the lookup faults on a present payload *)

(** The body [{"config":null}] is present, and the sleep-duration lookup
    raises on it: the lookup does not fault only on [None]. *)
Lemma null_config_lookup_faults :
  null_config_body <> VNone /\
  wait_time_lookup null_config_body = ([], Raised (AttributeError "get")) /\
  ~ (forall data, faults (wait_time_lookup data) <-> data = VNone).
Proof.
  split; [discriminate|]. split; [reflexivity|].
  intros Hclaim.
  assert (Hfault : faults (wait_time_lookup null_config_body))
    by now exists (AttributeError "get").
  apply Hclaim in Hfault. discriminate.
Qed.

(** The same body is a dict without the key [data], and a pass that
    fetches it ends in the lookup's AttributeError. *)
Lemma null_config_pass_faults :
  dict_lookup "data" [("config", VNone)] = None /\
  @main_iteration sample_platform (serve_json null_config_body) =
    ([Requested (API_URL ++ request_params 85)],
     Raised (AttributeError "get")) /\
  ~ (forall (P : Platform) get evs d,
        fetch_data get get_battery = (evs, Returned (VDict d)) ->
        dict_lookup "data" d = None ->
        ~ faults (@main_iteration P get)).
Proof.
  split; [reflexivity|]. split; [reflexivity|].
  intros Hclaim.
  apply (Hclaim sample_platform (serve_json null_config_body)
           [Requested (API_URL ++ request_params 85)] [("config", VNone)]);
    try reflexivity.
  now exists (AttributeError "get").
Qed.

(** ** More on the fetch boundary *)

Section FetchBoundary.

(** X1: the battery level survives the trip through the URL: reading the
    [bat] parameter of the requested URL as a decimal integer gives back
    the level [fetch_data] was called with, negative ones included. *)
Theorem battery_of_request_url (b : Z) :
  battery_of_url (API_URL ++ request_params b) = Some b.
Proof.
  unfold battery_of_url. rewrite query_params_request.
  cbn [param_lookup String.eqb Ascii.eqb Bool.eqb].
  rewrite int_of_str_int. cbn [option_map].
  now rewrite DecimalZ.of_to.
Qed.

(** X2: whatever [fetch_data] returns other than [None] is the parsed body of
    a response with status 200, and then it made its one request and
    printed nothing: no data comes out of a failed or non-200 exchange. *)
Theorem fetch_data_value_is_body (get : http_get) (b : Z) (v : value) :
  snd (fetch_data get b) = Returned v ->
  v <> VNone ->
  exists resp,
    get (API_URL ++ request_params b) = Got resp /\
    status_code resp = 200 /\
    json resp = Got v /\
    fetch_data get b = ([Requested (API_URL ++ request_params b)], Returned v).
Proof.
  unfold fetch_data, request_failed. cbv zeta.
  destruct (get (API_URL ++ request_params b)) as [resp | e].
  - destruct (status_code resp =? 200) eqn:Hstatus.
    + destruct (json resp) as [body | e] eqn:Hjson.
      * cbn. intros [= ->] _. exists resp.
        apply Z.eqb_eq in Hstatus. now repeat split.
      * destruct (is_Exception e); cbn; [|discriminate].
        intros [= <-] Hv. now destruct Hv.
    + cbn. intros [= <-] Hv. now destruct Hv.
  - destruct (is_Exception e); cbn; [|discriminate].
    intros [= <-] Hv. now destruct Hv.
Qed.

(** X3: [fetch_data] raises exactly when the library raised something that is
    not an [Exception], from [urequests.get] or from [response.json()] on a
    200 response; every other exchange ends in a return. *)
Theorem fetch_data_raises_iff (get : http_get) (b : Z) :
  faults (fetch_data get b) <->
  exists e,
    is_Exception e = false /\
    (get (API_URL ++ request_params b) = Threw e \/
     exists resp, get (API_URL ++ request_params b) = Got resp /\
                  status_code resp = 200 /\ json resp = Threw e).
Proof.
  unfold faults, fetch_data, request_failed. cbv zeta.
  destruct (get (API_URL ++ request_params b)) as [resp | e].
  - destruct (status_code resp =? 200) eqn:Hstatus.
    + apply Z.eqb_eq in Hstatus.
      destruct (json resp) as [body | e] eqn:Hjson.
      * cbn. split; [intros [x Hx]; discriminate|].
        intros (e & _ & [Hget | (r & [= <-] & _ & Hj)]); [discriminate|].
        rewrite Hjson in Hj. discriminate.
      * destruct (is_Exception e) eqn:Hexc; cbn.
        -- split; [intros [x Hx]; discriminate|].
           intros (e' & He' & [Hget | (r & [= <-] & _ & Hj)]); [discriminate|].
           rewrite Hjson in Hj. injection Hj as <-. congruence.
        -- split; [|intros _; now eexists].
           intros _. exists e. split; [exact Hexc|]. right. now exists resp.
    + apply Z.eqb_neq in Hstatus. cbn.
      split; [intros [x Hx]; discriminate|].
      intros (e & _ & [Hget | (r & [= <-] & Hs & _)]); [discriminate|].
      contradiction.
  - destruct (is_Exception e) eqn:Hexc; cbn.
    + split; [intros [x Hx]; discriminate|].
      intros (e' & He' & [[= <-] | (r & Hget & _)]); [congruence | discriminate].
    + split; [|intros _; now eexists].
      intros _. exists e. split; [exact Hexc|]. now left.
Qed.

End FetchBoundary.

(** ** More on the renderer *)

Section RendererEdges.
Context `{Platform}.

Lemma only_prints_bind {A B} (m : io A) (k : A -> io B) :
  only_prints m -> (forall a, only_prints (k a)) -> only_prints (bind m k).
Proof.
  unfold only_prints. destruct m as [evs [a|e]]; cbn [fst bind].
  - intros Hm Hk. specialize (Hk a). destruct (k a) as [evs' r].
    cbn [fst] in *. now rewrite forallb_app, Hm, Hk.
  - now intros Hm _.
Qed.

Lemma only_prints_for_each {A} (xs : list A) (body : A -> io unit) :
  (forall x, only_prints (body x)) -> only_prints (for_each xs body).
Proof.
  intros Hbody. induction xs as [|x xs IH]; [reflexivity|].
  cbn [for_each]. apply only_prints_bind; auto.
Qed.

Lemma only_prints_subscript (v : value) (k : string) : only_prints (subscript v k).
Proof. destruct v; try reflexivity. cbn. now destruct (dict_lookup k items). Qed.

Lemma only_prints_py_in (k : string) (v : value) : only_prints (py_in k v).
Proof. now destruct v. Qed.

Lemma only_prints_py_iter (v : value) : only_prints (py_iter v).
Proof. now destruct v. Qed.

Lemma for_each_app {A} (xs ys : list A) (body : A -> io unit) :
  for_each (xs ++ ys) body = (for_each xs body ;; for_each ys body).
Proof.
  induction xs as [|x xs IH]; cbn [for_each app].
  - now rewrite bind_ret_l.
  - now rewrite IH, bind_assoc.
Qed.

Lemma display_data_only_prints_aux (data : value) :
  only_prints (display_data data).
Proof.
  unfold display_data.
  apply only_prints_bind.
  - destruct (negb (truthy data)); [reflexivity|].
    apply only_prints_bind; [apply only_prints_py_in | reflexivity].
  - intros [|]; [reflexivity|].
    repeat (apply only_prints_bind; intros;
            try apply only_prints_subscript; try apply only_prints_py_iter;
            try reflexivity).
    apply only_prints_for_each. intros task.
    repeat (apply only_prints_bind; intros;
            try apply only_prints_subscript; try reflexivity).
Qed.

(** X4: the renderer does nothing but print: whatever [display_data] is given,
    and whether it returns or raises, every event of it is a printed line;
    it makes no request and never sleeps. *)
Theorem display_data_only_prints (data : value) :
  Forall (fun ev => exists text, ev = Printed text) (fst (display_data data)).
Proof.
  pose proof (display_data_only_prints_aux data) as Hall.
  unfold only_prints in Hall. rewrite forallb_forall in Hall.
  apply Forall_forall. intros ev Hin. specialize (Hall ev Hin).
  destruct ev; try discriminate. now eexists.
Qed.

(** X5: A body that is a bare bool or number: [display_data] is silent on a
    falsy one ([false], [0], [0.0]) and raises TypeError, having printed
    nothing, on any other (the [in] test has nothing to search). *)
Theorem display_data_scalar :
  (forall b, display_data (VBool b) =
             ([], if b then Raised TypeError else Returned tt)) /\
  (forall n, display_data (VInt n) =
             ([], if n =? 0 then Returned tt else Raised TypeError)) /\
  (forall f, display_data (VFloat f) =
             ([], if float_nonzero f then Raised TypeError else Returned tt)).
Proof.
  repeat split.
  - now intros [|].
  - intros n. unfold display_data. cbn [truthy]. now destruct (n =? 0).
  - intros f. unfold display_data. cbn [truthy]. now destruct (float_nonzero f).
Qed.

(** X6: A body that is a list or a str: [display_data] is silent unless the
    list has the element ['data'], or the str contains [data]; then it
    prints the banner and raises TypeError at the first subscript. *)
Theorem display_data_list_or_str :
  (forall xs, display_data (VList xs) =
     if existsb (is_str "data") xs
     then ([Printed "--- E-Ink Update ---"], Raised TypeError)
     else ([], Returned tt)) /\
  (forall s, display_data (VStr s) =
     if is_substring "data" s
     then ([Printed "--- E-Ink Update ---"], Raised TypeError)
     else ([], Returned tt)).
Proof.
  split.
  - intros xs. unfold display_data. destruct xs as [|x xs]; [reflexivity|].
    cbn [truthy negb py_in]. rewrite bind_ret_l.
    now destruct (existsb (is_str "data") (x :: xs)).
  - intros s. unfold display_data. destruct s as [|c s]; [reflexivity|].
    cbn [truthy negb py_in String.eqb]. rewrite bind_ret_l.
    now destruct (is_substring "data" (String c s)).
Qed.

Lemma display_data_tasks (d m : list (string * value)) (ws tasks : value) :
  dict_lookup "data" d = Some (VDict m) ->
  dict_lookup "workspace" m = Some ws ->
  dict_lookup "tasks" m = Some tasks ->
  display_data (VDict d) =
    after_header ws
      (items <- py_iter tasks ;;
       for_each items (fun task =>
         priority <- subscript task "priority" ;;
         title <- subscript task "title" ;;
         print ("- [" ++ py_str priority ++ "] " ++ py_str title)) ;;
       print "--------------------").
Proof.
  intros Hd Hw Ht. rewrite (display_data_present _ _ Hd).
  unfold subscript at 1 2. rewrite Hw, Ht.
  rewrite !bind_ret_l. unfold after_header.
  now rewrite !print_then.
Qed.

Lemma task_line_error (bad : value) (e : pyexc) :
  task_fault bad e ->
  (priority <- subscript bad "priority" ;;
   title <- subscript bad "title" ;;
   print ("- [" ++ py_str priority ++ "] " ++ py_str title))
  = ([], Raised e).
Proof.
  intros [[Hnot ->] | [(t & -> & Hp & ->) | (t & p & -> & Hp & Ht & ->)]].
  - now destruct bad.
  - cbn [subscript]. now rewrite Hp.
  - cbn [subscript]. now rewrite Hp, Ht.
Qed.

(** X7: rendering is cut at the first task that cannot be printed: the lines
    of the tasks before it are out, then comes the exception of that task
    (TypeError when it is no dict, KeyError for [priority], or for [title]
    when [priority] is there), and neither the later tasks nor the closing
    rule are printed. *)
Theorem display_data_stops_at_bad_task
    (d m : list (string * value)) (ws : value)
    (good : list (list (string * value))) (lines : list string)
    (bad : value) (rest : list value) (e : pyexc) :
  dict_lookup "data" d = Some (VDict m) ->
  dict_lookup "workspace" m = Some ws ->
  dict_lookup "tasks" m = Some (VList (map VDict good ++ bad :: rest)) ->
  Forall2 (fun t line => exists p ti,
             dict_lookup "priority" t = Some p /\
             dict_lookup "title" t = Some ti /\
             line = "- [" ++ py_str p ++ "] " ++ py_str ti) good lines ->
  task_fault bad e ->
  display_data (VDict d) =
    (([Printed "--- E-Ink Update ---"; Printed ("Workspace: " ++ py_str ws);
       Printed "Tasks:"] ++ map Printed lines)%list,
     Raised e).
Proof.
  intros Hd Hw Ht Hgood Hbad.
  rewrite (display_data_tasks _ _ _ _ Hd Hw Ht).
  cbn [py_iter]. rewrite bind_ret_l, for_each_app.
  rewrite (for_each_lines _ _ Hgood).
  cbn [for_each]. rewrite (task_line_error _ _ Hbad).
  cbn. now rewrite app_nil_r.
Qed.

(** X8: when [tasks] is not a list: an empty dict or an empty str is walked
    like an empty list and the frame is printed whole; anything else
    raises TypeError after the [Tasks:] header (a number or null cannot be
    walked, and the keys of a dict and the characters of a str take no
    subscript). *)
Theorem display_data_tasks_not_list
    (d m : list (string * value)) (ws tasks : value) :
  dict_lookup "data" d = Some (VDict m) ->
  dict_lookup "workspace" m = Some ws ->
  dict_lookup "tasks" m = Some tasks ->
  is_list tasks = false ->
  display_data (VDict d) =
    if is_empty_dict_or_str tasks
    then ([Printed "--- E-Ink Update ---"; Printed ("Workspace: " ++ py_str ws);
           Printed "Tasks:"; Printed "--------------------"],
          Returned tt)
    else ([Printed "--- E-Ink Update ---"; Printed ("Workspace: " ++ py_str ws);
           Printed "Tasks:"],
          Raised TypeError).
Proof.
  intros Hd Hw Ht Hlist.
  rewrite (display_data_tasks _ _ _ _ Hd Hw Ht).
  destruct tasks as [| | | |s|xs|items]; try reflexivity.
  - now destruct s.
  - discriminate.
  - now destruct items.
Qed.

End RendererEdges.

(** ** More on the loop *)

Section LoopRuns.
Context `{Platform}.

Lemma requested_urls_app (evs evs' : list event) :
  requested_urls (evs ++ evs') = (requested_urls evs ++ requested_urls evs')%list.
Proof.
  induction evs as [|ev evs IH]; [reflexivity|].
  destruct ev; cbn [requested_urls app]; now rewrite IH.
Qed.

Lemma only_prints_no_request {A} (m : io A) :
  only_prints m -> requested_urls (fst m) = [].
Proof.
  unfold only_prints. induction (fst m) as [|ev evs IH]; [reflexivity|].
  destruct ev; cbn; try discriminate. exact IH.
Qed.

Lemma no_request_bind {A B} (m : io A) (k : A -> io B) :
  requested_urls (fst m) = [] ->
  (forall a, requested_urls (fst (k a)) = []) ->
  requested_urls (fst (bind m k)) = [].
Proof.
  destruct m as [evs [a|e]]; cbn [fst bind]; [|trivial].
  intros Hm Hk. specialize (Hk a). destruct (k a) as [evs' r].
  cbn [fst] in *. now rewrite requested_urls_app, Hm, Hk.
Qed.

Lemma after_fetch_no_request (data : value) :
  requested_urls
    (fst (display_data data ;;
          wait_time <- wait_time_lookup data ;;
          print ("Sleeping for " ++ py_str wait_time ++ "s...") ;;
          time_sleep wait_time)) = [].
Proof.
  apply no_request_bind.
  - apply only_prints_no_request, display_data_only_prints_aux.
  - intros _. apply no_request_bind.
    + unfold wait_time_lookup. apply no_request_bind.
      * destruct data; try reflexivity. cbn.
        now destruct (dict_lookup "config" items).
      * intros c. destruct c; try reflexivity. cbn.
        now destruct (dict_lookup "refresh_interval" items).
    + intros w. apply no_request_bind; [reflexivity|].
      intros _. unfold time_sleep. now destruct (sleep_refuses w).
Qed.

Lemma fetch_data_events (get : http_get) (b : Z) :
  exists logs,
    fst (fetch_data get b) = Requested (API_URL ++ request_params b) :: logs /\
    requested_urls logs = [].
Proof.
  unfold fetch_data, request_failed. cbv zeta.
  destruct (get (API_URL ++ request_params b)) as [resp | e].
  - destruct (status_code resp =? 200); [|now eexists].
    destruct (json resp) as [body | e]; [now eexists|].
    destruct (is_Exception e); now eexists.
  - destruct (is_Exception e); now eexists.
Qed.

(** X9: every pass of the loop, whatever the server does and however the pass
    ends, makes exactly one request, first of all it does, and always for
    the same URL: the one for battery level 85. *)
Theorem main_iteration_requests_once (get : http_get) :
  exists evs,
    fst (main_iteration get) =
      Requested "http://YOUR_LOCAL_IP:8080/api/eink/relevant?token=your_secure_device_token&bat=85&res=800x600"
      :: evs /\
    requested_urls evs = [].
Proof.
  unfold main_iteration. cbv zeta.
  destruct (fetch_data_events get get_battery) as (logs & Hlogs & Hquiet).
  destruct (fetch_data get get_battery) as [evs [data|e]]; cbn [fst] in Hlogs; subst evs.
  - rewrite bind_returned. cbn [fst app].
    eexists. split; [reflexivity|].
    now rewrite requested_urls_app, Hquiet, after_fetch_no_request.
  - cbn [bind fst]. eexists. split; [reflexivity | exact Hquiet].
Qed.


Lemma main_loop_app (net : nat -> http_get) (n m i : nat) :
  main_loop net i (n + m) = (main_loop net i n ;; main_loop net (i + n) m).
Proof.
  revert i. induction n as [|n IH]; intros i; cbn [main_loop Nat.add].
  - now rewrite bind_ret_l, Nat.add_0_r.
  - now rewrite IH, bind_assoc, Nat.add_succ_r.
Qed.

Lemma main_loop_fault_after (net : nat -> http_get) (i k more : nat)
    (evs evs' : list event) (e : pyexc) :
  main_loop net i k = (evs, Returned tt) ->
  main_iteration (net (i + k)%nat) = (evs', Raised e) ->
  main_loop net i (k + S more) = ((evs ++ evs')%list, Raised e).
Proof.
  intros Hgood Hbad. rewrite main_loop_app, Hgood, bind_returned.
  cbn [main_loop]. now rewrite Hbad.
Qed.

(** X11: the loop ends at the first pass that raises: when [k] passes returned
    and the next one raises, the run is those passes' events, then that
    pass's, ending in its exception, however long the loop is watched and
    whatever the network would have answered later. *)
Theorem main_loop_ends_at_fault (net : nat -> http_get) (i k more : nat)
    (evs evs' : list event) (e : pyexc) :
  main_loop net i k = (evs, Returned tt) ->
  main_iteration (net (i + k)%nat) = (evs', Raised e) ->
  main_loop net i (k + S more) = ((evs ++ evs')%list, Raised e).
Proof.
  intros Hgood Hbad.
  rewrite main_loop_app, Hgood, bind_returned.
  cbn [main_loop]. rewrite Hbad. reflexivity.
Qed.


End LoopRuns.

(** ** Joining the network, and the whole program *)

Section Startup.
Context `{Platform}.

Lemma wait_connected_first_true (wlan : station) (j p fuel : nat) :
  sleep_refuses (VInt 1) = false ->
  (forall i, (i < j)%nat -> isconnected wlan (p + i) = false) ->
  isconnected wlan (p + j) = true ->
  (j < fuel)%nat ->
  wait_connected wlan p fuel =
    Some ((waiting_steps j ++ [Wlan (IsConnected true)])%list, Returned tt).
Proof.
  intros Hsleep. revert p fuel.
  induction j as [|j IH]; intros p fuel Hfalse Htrue Hfuel;
    (destruct fuel as [|fuel]; [lia|]); cbn [wait_connected].
  - rewrite Nat.add_0_r in Htrue. now rewrite Htrue.
  - pose proof (Hfalse O ltac:(lia)) as H0. rewrite Nat.add_0_r in H0.
    rewrite H0. unfold time_sleep. rewrite Hsleep. cbn [lift emit fst snd map].
    rewrite (IH (S p) fuel).
    + reflexivity.
    + intros i Hi. replace (S p + i)%nat with (p + S i)%nat by lia.
      apply Hfalse. lia.
    + now replace (S p + j)%nat with (p + S j)%nat by lia.
    + lia.
Qed.

Lemma wait_connected_never (wlan : station) (p fuel : nat) :
  sleep_refuses (VInt 1) = false ->
  (forall n, isconnected wlan n = false) ->
  wait_connected wlan p fuel = None.
Proof.
  intros Hsleep Hdead. revert p.
  induction fuel as [|fuel IH]; intros p; cbn [wait_connected]; [reflexivity|].
  rewrite Hdead. unfold time_sleep. rewrite Hsleep. cbn [lift emit fst snd map].
  now rewrite IH.
Qed.

Lemma connect_calls_app (steps steps' : list step) :
  connect_calls (steps ++ steps') = (connect_calls steps ++ connect_calls steps')%list.
Proof.
  induction steps as [|st steps IH]; [reflexivity|].
  destruct st as [[]|]; cbn [connect_calls app]; now rewrite IH.
Qed.

Lemma wait_connected_no_connect (wlan : station) (p fuel : nat)
    (steps : list step) (r : outcome unit) :
  wait_connected wlan p fuel = Some (steps, r) -> connect_calls steps = [].
Proof.
  revert p steps r.
  induction fuel as [|fuel IH]; intros p steps r; cbn [wait_connected];
    [discriminate|].
  destruct (isconnected wlan p); [now intros [= <- <-]|].
  unfold time_sleep. destruct (sleep_refuses (VInt 1)); cbn [lift raise emit fst snd map].
  - now intros [= <- <-].
  - destruct (wait_connected wlan (S p) fuel) as [[steps' r']|] eqn:Hrest;
      [|discriminate].
    intros [= <- <-]. cbn. exact (IH _ _ _ Hrest).
Qed.

(** X13: [connect_wifi] returns as soon as a poll answers true: when poll [k]
    is the first to do so and [time.sleep(1)] goes through, then with
    [fuel] for [k] tests of the wait loop it returns after exactly the
    steps [connect_steps wlan k]: with [k = 0] no [Connecting] line and no
    [wlan.connect]; otherwise one [wlan.connect] with the configured SSID
    and password and [k - 1] sleeps of one second; then the address is
    printed. *)
Theorem connect_wifi_returns (wlan : station) (k fuel : nat) :
  sleep_refuses (VInt 1) = false ->
  (forall i, (i < k)%nat -> isconnected wlan i = false) ->
  isconnected wlan k = true ->
  (k <= fuel)%nat ->
  connect_wifi wlan fuel = Some (connect_steps wlan k, Returned tt).
Proof.
  intros Hsleep Hfalse Htrue Hfuel. unfold connect_wifi. cbv zeta.
  destruct k as [|k].
  - now rewrite Htrue.
  - rewrite (Hfalse O ltac:(lia)).
    rewrite (wait_connected_first_true wlan k 1 fuel Hsleep).
    + unfold after, connect_steps. cbn [fst snd].
      now rewrite <- !app_assoc.
    + intros i Hi. apply Hfalse. lia.
    + exact Htrue.
    + lia.
Qed.

(** X14: no timeout: while no poll ever answers true, [connect_wifi] is still
    in its wait loop after any number of tests, and so [main] never gets to
    its first request. *)
Theorem connect_wifi_blocks (wlan : station) :
  sleep_refuses (VInt 1) = false ->
  (forall n, isconnected wlan n = false) ->
  forall fuel,
    connect_wifi wlan fuel = None /\
    forall net passes, main wlan net fuel passes = None.
Proof.
  intros Hsleep Hdead fuel.
  assert (Hnone : connect_wifi wlan fuel = None).
  { unfold connect_wifi. cbv zeta. rewrite Hdead.
    now rewrite (wait_connected_never wlan 1 fuel Hsleep Hdead). }
  split; [exact Hnone|].
  intros net passes. unfold main. now rewrite Hnone.
Qed.

(** X15: the credentials are handed over at most once: however [connect_wifi]
    ends, it has called [wlan.connect] not at all when the first poll
    answered true, and otherwise exactly once, with [WIFI_SSID] and
    [WIFI_PASS]. *)
Theorem connect_wifi_connects_once (wlan : station) (fuel : nat)
    (steps : list step) (r : outcome unit) :
  connect_wifi wlan fuel = Some (steps, r) ->
  connect_calls steps =
    if isconnected wlan 0 then [] else [(WIFI_SSID, WIFI_PASS)].
Proof.
  unfold connect_wifi. cbv zeta.
  destruct (isconnected wlan 0); [now intros [= <- <-]|].
  destruct (wait_connected wlan 1 fuel) as [[steps' r']|] eqn:Hwait;
    [|discriminate].
  pose proof (wait_connected_no_connect _ _ _ _ _ Hwait) as Hnone.
  destruct r' as [[]|e]; intros [= <- <-]; unfold after;
    cbn [fst connect_calls];
    rewrite ?connect_calls_app, Hnone; reflexivity.
Qed.

(** X16: the whole program ends at the first pass that raises: once
    [connect_wifi] has returned, [k] passes have returned and the next one
    raises, [main] has performed the joining steps, those passes' events
    and that pass's, and ended in its exception. *)
Theorem main_ends_at_fault (wlan : station) (net : nat -> http_get)
    (fuel k more : nat) (steps : list step) (evs evs' : list event) (e : pyexc) :
  connect_wifi wlan fuel = Some (steps, Returned tt) ->
  main_loop net 0 k = (evs, Returned tt) ->
  main_iteration (net k) = (evs', Raised e) ->
  main wlan net fuel (k + S more) =
    Some ((steps ++ map Io (evs ++ evs'))%list, Raised e).
Proof.
  intros Hwifi Hgood Hbad. unfold main. rewrite Hwifi.
  rewrite (main_loop_fault_after net 0 k more evs evs' e Hgood Hbad).
  reflexivity.
Qed.

End Startup.

(** ** What each step reads of the payload *)

Section Reads.
Context `{Platform}.

(** X17: rendering reads nothing of a dict payload but its [data] entry, and
    the sleep-duration lookup nothing but its [config] entry: two payloads
    that agree on the one render alike, and two that agree on the other
    give the same interval or the same fault. *)
Theorem payload_entries_read (d d' : list (string * value)) :
  (dict_lookup "data" d = dict_lookup "data" d' ->
   display_data (VDict d) = display_data (VDict d')) /\
  (dict_lookup "config" d = dict_lookup "config" d' ->
   wait_time_lookup (VDict d) = wait_time_lookup (VDict d')).
Proof.
  split; intros Hsame.
  - destruct (dict_lookup "data" d) as [inner|] eqn:Hd.
    + symmetry in Hsame.
      now rewrite (display_data_present _ _ Hd), (display_data_present _ _ Hsame).
    + symmetry in Hsame.
      now rewrite (display_data_no_data_key _ Hd), (display_data_no_data_key _ Hsame).
  - rewrite !wait_time_lookup_dict. now rewrite Hsame.
Qed.

End Reads.

(** ** The further properties at sample inputs *)

Lemma fetch_data_one_task_body :
  exists resp,
    serve_json one_task_body (API_URL ++ request_params 85) = Got resp /\
    status_code resp = 200 /\
    json resp = Got one_task_body /\
    fetch_data (serve_json one_task_body) 85 =
      ([Requested (API_URL ++ request_params 85)], Returned one_task_body).
Proof.
  apply (fetch_data_value_is_body (serve_json one_task_body) 85 one_task_body).
  - reflexivity.
  - discriminate.
Defined.

Lemma fetch_data_interrupted : faults (fetch_data interrupted 85).
Proof.
  apply (proj2 (fetch_data_raises_iff interrupted 85)).
  exists keyboard_interrupt. split; [reflexivity|]. left. reflexivity.
Defined.

Lemma display_data_second_task_without_title :
  @display_data sample_platform
    (VDict [("data",
             VDict [("workspace", VStr "W");
                    ("tasks", VList [VDict [("priority", VStr "high");
                                            ("title", VStr "T1")];
                                     VDict [("priority", VInt 2)];
                                     VDict [("priority", VStr "low");
                                            ("title", VStr "T3")]])])])
  = ([Printed "--- E-Ink Update ---"; Printed "Workspace: W"; Printed "Tasks:";
      Printed "- [high] T1"],
     Raised (KeyError "title")).
Proof.
  apply (@display_data_stops_at_bad_task sample_platform _
           [("workspace", VStr "W");
            ("tasks", VList [VDict [("priority", VStr "high");
                                    ("title", VStr "T1")];
                             VDict [("priority", VInt 2)];
                             VDict [("priority", VStr "low");
                                    ("title", VStr "T3")]])]
           (VStr "W")
           [[("priority", VStr "high"); ("title", VStr "T1")]]
           ["- [high] T1"]
           (VDict [("priority", VInt 2)])
           [VDict [("priority", VStr "low"); ("title", VStr "T3")]]
           (KeyError "title")).
  - reflexivity.
  - reflexivity.
  - reflexivity.
  - constructor; [|constructor].
    exists (VStr "high"), (VStr "T1"). repeat split.
  - right. right. exists [("priority", VInt 2)], (VInt 2). repeat split.
Defined.

Lemma display_data_tasks_number :
  @display_data sample_platform
    (VDict [("data", VDict [("workspace", VStr "W"); ("tasks", VInt 3)])])
  = ([Printed "--- E-Ink Update ---"; Printed "Workspace: W"; Printed "Tasks:"],
     Raised TypeError).
Proof.
  apply (@display_data_tasks_not_list sample_platform _
           [("workspace", VStr "W"); ("tasks", VInt 3)] (VStr "W") (VInt 3));
    reflexivity.
Defined.

Lemma main_loop_flaky_net :
  @main_loop sample_platform flaky_net 0 (1 + 4) =
    ([Requested (API_URL ++ request_params 85);
      Printed "Sleeping for 60s..."; Slept (VInt 60);
      Requested (API_URL ++ request_params 85);
      Printed "Request failed: [Errno 111] ECONNREFUSED"],
     Raised (AttributeError "get")).
Proof.
  apply (@main_loop_ends_at_fault sample_platform flaky_net 0 1 3
           [Requested (API_URL ++ request_params 85);
            Printed "Sleeping for 60s..."; Slept (VInt 60)]
           [Requested (API_URL ++ request_params 85);
            Printed "Request failed: [Errno 111] ECONNREFUSED"]
           (AttributeError "get"));
    reflexivity.
Defined.

Lemma connect_wifi_slow_station :
  @connect_wifi sample_platform slow_station 5 =
    Some ([Wlan (SetActive true); Wlan (IsConnected false);
           Io (Printed "Connecting to WiFi...");
           Wlan (Connect "Your_WiFi_SSID" "Your_WiFi_Password");
           Wlan (IsConnected false); Io (Slept (VInt 1));
           Wlan (IsConnected true);
           Wlan Ifconfig; Io (Printed "WiFi connected: 192.168.1.50")],
          Returned tt).
Proof.
  apply (@connect_wifi_returns sample_platform slow_station 2 5).
  - reflexivity.
  - intros i Hi. destruct i as [|[|i]]; [reflexivity | reflexivity | lia].
  - reflexivity.
  - lia.
Defined.

Lemma connect_wifi_dead_station :
  @connect_wifi sample_platform dead_station 1000 = None /\
  forall net passes, @main sample_platform dead_station net 1000 passes = None.
Proof.
  apply (@connect_wifi_blocks sample_platform dead_station).
  - reflexivity.
  - intros n. reflexivity.
Defined.

Lemma connect_wifi_slow_station_connects_once :
  connect_calls (connect_steps slow_station 2) = [(WIFI_SSID, WIFI_PASS)].
Proof.
  apply (@connect_wifi_connects_once sample_platform slow_station 5
           (connect_steps slow_station 2) (Returned tt)).
  reflexivity.
Defined.

Lemma main_slow_station_flaky_net :
  @main sample_platform slow_station flaky_net 5 (1 + 1) =
    Some ((connect_steps slow_station 2
           ++ map Io ([Requested (API_URL ++ request_params 85);
                       Printed "Sleeping for 60s..."; Slept (VInt 60)]
                      ++ [Requested (API_URL ++ request_params 85);
                          Printed "Request failed: [Errno 111] ECONNREFUSED"]))%list,
          Raised (AttributeError "get")).
Proof.
  apply (@main_ends_at_fault sample_platform slow_station flaky_net 5 1 0);
    reflexivity.
Defined.

Lemma payload_entries_read_sample :
  @display_data sample_platform
    (VDict [("config", VDict [("refresh_interval", VInt 60)]);
            ("data", VDict [("workspace", VStr "W"); ("tasks", VList [])])])
  = @display_data sample_platform
      (VDict [("data", VDict [("workspace", VStr "W"); ("tasks", VList [])])]).
Proof.
  apply (proj1 (@payload_entries_read sample_platform _ _)). reflexivity.
Defined.
